(** Shallow embedding of [oid4vci/v1_0/oid4vci_server.py]: the admin
    server of the OID4VCI plugin, its [check_token] middleware, its
    lifecycle ([start], [stop], [notify_fatal_error]) and its status
    handlers. *)

From Stdlib Require Import String Ascii List ZArith Bool Lia.
From Stdlib Require Import Strings.Byte.
Import ListNotations.
Open Scope string_scope.

(** * Python values and exceptions *)

(** The exceptions the module can raise.  [AttributeError] is what
    Python raises when a method is looked up on [None]; the [HTTP*]
    exceptions are aiohttp's [web.HTTPException] subclasses, which the
    framework turns into responses. *)
Inductive exn :=
| AttributeError (msg : string)
| HTTPUnauthorized
| HTTPServiceUnavailable (reason : string)
| HTTPFound (location : string)
| AdminSetupError (msg : string).

#[local] Set Warnings "-register-all".

(** JSON bodies, as built by [web.json_response]. *)
Inductive json :=
| JBool (b : bool)
| JObj (fields : list (string * json)).

Record response := mk_response { status : Z; body : json }.

(** [web.json_response(d)]: status 200 with the given body. *)
Definition json_response (d : json) : response := mk_response 200 d.

Inductive result (A : Type) :=
| Ok (a : A)
| Err (e : exn).
Arguments Ok {A} a.
Arguments Err {A} e.

(** The status line aiohttp sends for a handler outcome: an
    [HTTPException] is its own response, any other exception becomes a
    500 Internal Server Error. *)
Definition http_status (r : result response) : Z :=
  match r with
  | Ok resp => status resp
  | Err HTTPUnauthorized => 401
  | Err (HTTPServiceUnavailable _) => 503
  | Err (HTTPFound _) => 302
  | Err (AttributeError _) => 500
  | Err (AdminSetupError _) => 500
  end.

(** [x.encode()] for [x : Optional[str]]: UTF-8 bytes of a string, an
    [AttributeError] on [None]. *)
Definition py_encode (x : option string) : result (list byte) :=
  match x with
  | Some s => Ok (list_byte_of_string s)
  | None => Err (AttributeError "'NoneType' object has no attribute 'encode'")
  end.

(** [hmac.compare_digest] on two byte strings: equality of the bytes. *)
Fixpoint compare_digest (a b : list byte) : bool :=
  match a, b with
  | [], [] => true
  | x :: a', y :: b' => Byte.eqb x y && compare_digest a' b'
  | _, _ => false
  end.

(** * Requests and the [check_token] middleware *)

(** ASCII lower-casing, used by the case-insensitive header lookup of
    aiohttp's [CIMultiDict]. *)
Definition lower_ascii (c : ascii) : ascii :=
  let n := nat_of_ascii c in
  if (65 <=? n)%nat && (n <=? 90)%nat then ascii_of_nat (n + 32) else c.

Fixpoint lower (s : string) : string :=
  match s with
  | EmptyString => EmptyString
  | String c s' => String (lower_ascii c) (lower s')
  end.

Record request := mk_request {
  method : string;
  path : string;
  headers : list (string * string)
}.

(** [request.headers.get(name)]: first header whose name matches
    case-insensitively, [None] if there is none. *)
Fixpoint headers_get (hs : list (string * string)) (name : string)
  : option string :=
  match hs with
  | [] => None
  | (k, v) :: hs' =>
      if String.eqb (lower k) (lower name) then Some v else headers_get hs' name
  end.

(** A downstream handler of the middleware chain. *)
Definition handler := request -> result response.

(** [check_token], lines 90-109, written as the source has it: the
    admin key is the literal [None]; both [.encode()] calls are
    evaluated before the method test. *)
Definition check_token (req : request) (h : handler) : result response :=
  let header_admin_api_key := headers_get (headers req) "x-api-key" in
  let admin_api_key : option string := None in
  match py_encode admin_api_key with
  | Err e => Err e
  | Ok k =>
      match py_encode header_admin_api_key with
      | Err e => Err e
      | Ok hk =>
          let valid_key := compare_digest k hk in
          if valid_key || String.eqb (method req) "OPTIONS"
          then h req
          else Err HTTPUnauthorized
      end
  end.

(** * Server state *)

(** The two entries of [app._state] the module reads and writes. *)
Record app_state := mk_app_state { ready : bool; alive : bool }.

(** [web.TCPSite(runner, host=..., port=...)]. *)
Record tcp_site := mk_site { site_host : string; site_port : Z }.

(** The timing statistics [Collector] of the host agent, reduced to the
    recorded timings that [reset] clears. *)
Record collector := mk_collector { timings : list (string * Z) }.

Definition collector_reset (c : collector) : collector := mk_collector [].

(** The [InjectionContext]: the only binding the module looks up is the
    optional [Collector]. *)
Record injection_context := mk_context { ctx_collector : option collector }.

(** [context.inject_or(Collector)]. *)
Definition inject_or_collector (ctx : injection_context) : option collector :=
  ctx_collector ctx.

(** The attributes of an [Oid4vciServer] instance. *)
Record server := mk_server {
  app : option app_state;
  host : string;
  port : Z;
  context : injection_context;
  site : option tcp_site
}.

Definition set_app (s : server) (a : option app_state) : server :=
  mk_server a (host s) (port s) (context s) (site s).
Definition set_site (s : server) (t : option tcp_site) : server :=
  mk_server (app s) (host s) (port s) (context s) t.
Definition set_context (s : server) (c : injection_context) : server :=
  mk_server (app s) (host s) (port s) c (site s).

(** [Oid4vciServer.__init__]: no application and no site yet. *)
Definition init (host port : _) (context : injection_context) : server :=
  mk_server None host port context None.

(** * A state and exception monad for the methods of the server *)

Definition M (A : Type) := server -> result A * server.

Definition ret {A} (a : A) : M A := fun s => (Ok a, s).
Definition raise {A} (e : exn) : M A := fun s => (Err e, s).
Definition bind {A B} (m : M A) (k : A -> M B) : M B :=
  fun s => match m s with
           | (Ok a, s') => k a s'
           | (Err e, s') => (Err e, s')
           end.
Definition get : M server := fun s => (Ok s, s).
Definition put (s : server) : M unit := fun _ => (Ok tt, s).

Notation "x <- m ;; k" := (bind m (fun x => k))
  (at level 61, m at next level, right associativity).
Notation "m ;;; k" := (bind m (fun _ => k))
  (at level 61, right associativity).

Definition none_attr (attr : string) : exn :=
  AttributeError ("'NoneType' object has no attribute '" ++ attr ++ "'").

(** [self.app._state[key]]: reading through [self.app], which is
    [None] until [start] has built the application. *)
Definition get_app_state : M app_state :=
  s <- get ;;
  match app s with
  | Some a => ret a
  | None => raise (none_attr "_state")
  end.

(** [self.app._state["ready"] = b] *)
Definition set_ready (b : bool) : M unit :=
  a <- get_app_state ;;
  s <- get ;;
  put (set_app s (Some (mk_app_state b (alive a)))).

(** [self.app._state["alive"] = b] *)
Definition set_alive (b : bool) : M unit :=
  a <- get_app_state ;;
  s <- get ;;
  put (set_app s (Some (mk_app_state (ready a) b))).

(** Decimal rendering of an [int] in an f-string. *)
Fixpoint digits (fuel : nat) (n : Z) (acc : string) : string :=
  match fuel with
  | O => acc
  | S f =>
      let acc' := String (ascii_of_nat (48 + Z.to_nat (n mod 10))) acc in
      if n <? 10 then acc' else digits f (n / 10) acc'
  end%Z.

Definition Z_str (z : Z) : string :=
  if (z <? 0)%Z
  then "-" ++ digits (Pos.size_nat (Z.to_pos (- z))) (- z) ""
  else digits (S (Pos.size_nat (Z.to_pos z))) z "".

Definition newline : string := String (ascii_of_nat 10) EmptyString.

(** * Lifecycle *)

(** [make_application]: a fresh [web.Application] whose middleware
    chain ends in [check_token] and [setup_context], with
    [_state["ready"]] and [_state["alive"]] both [False] (lines 168-170).
    The routes, CORS and OpenAPI set-up touch no state the module reads. *)
Definition make_application : M app_state :=
  ret (mk_app_state false false).

(** What [await self.site.start()] does: bind the socket, or fail with
    an [OSError] (address in use, permission denied, ...). *)
Inductive bind_outcome := BindOk | BindOSError.

(** [Oid4vciServer.start], lines 174-196. *)
Definition start (o : bind_outcome) : M unit :=
  a <- make_application ;;
  s <- get ;;
  put (set_app s (Some a)) ;;;
  s <- get ;;
  put (set_site s (Some (mk_site (host s) (port s)))) ;;;
  match o with
  | BindOk =>
      set_ready true ;;;
      set_alive true
  | BindOSError =>
      s <- get ;;
      raise (AdminSetupError
               ("Unable to start webserver with host "
                ++ "'" ++ host s ++ "' and port '" ++ Z_str (port s) ++ "'"
                ++ newline))
  end.

(** [await self.site.stop()]: closes the listening socket; it has no
    effect on the attributes the module models. *)
Definition site_stop (t : tcp_site) : M unit := ret tt.

(** [Oid4vciServer.stop], lines 198-203. *)
Definition stop : M unit :=
  set_ready false ;;;
  s <- get ;;
  match site s with
  | Some t =>
      site_stop t ;;;
      s <- get ;;
      put (set_site s None)
  | None => ret tt
  end.

(** [Oid4vciServer.notify_fatal_error], lines 262-266 (the log line
    is not modelled). *)
Definition notify_fatal_error : M unit :=
  set_ready false ;;;
  set_alive false.

(** * Handlers *)

(** [status_reset_handler], lines 205-220: [collector.reset()] mutates
    the collector bound in the context. *)
Definition status_reset_handler (req : request) : M response :=
  s <- get ;;
  match inject_or_collector (context s) with
  | Some c =>
      put (set_context s (mk_context (Some (collector_reset c)))) ;;;
      ret (json_response (JObj []))
  | None => ret (json_response (JObj []))
  end.

(** [liveliness_handler], lines 226-242. *)
Definition liveliness_handler (req : request) : M response :=
  a <- get_app_state ;;
  let app_live := alive a in
  if app_live
  then ret (json_response (JObj [("alive", JBool app_live)]))
  else raise (HTTPServiceUnavailable "Service not available").

(** [readiness_handler], lines 244-260: Python's [and] on two bools. *)
Definition readiness_handler (req : request) : M response :=
  a <- get_app_state ;;
  let app_ready := if ready a then alive a else false in
  if app_ready
  then ret (json_response (JObj [("ready", JBool app_ready)]))
  else raise (HTTPServiceUnavailable "Service not ready").

(** [redirect_handler], lines 222-224. *)
Definition redirect_handler (req : request) : M response :=
  raise (HTTPFound "/api/doc").

(** * Path protection, context attachment and the route table *)

(** [is_unprotected_path], lines 80-87: five exact paths and everything
    under [/static/swagger/]. *)
Definition is_unprotected_path (path : string) : bool :=
  existsb (String.eqb path)
    ["/api/doc"; "/api/docs/swagger.json"; "/favicon.ico";
     "/status/live"; "/status/ready"]
  || String.prefix "/static/swagger/" path.

(** [AdminRequestContext(profile=profile)]. *)
Record admin_request_context (P : Type) := mk_admin_request_context {
  arc_profile : P
}.
Arguments mk_admin_request_context {P} arc_profile.
Arguments arc_profile {P} _.

(** A request after [request["context"] = admin_context]. *)
Record ctx_request (P : Type) := mk_ctx_request {
  base_request : request;
  req_context : admin_request_context P
}.
Arguments mk_ctx_request {P} base_request req_context.
Arguments base_request {P} _.
Arguments req_context {P} _.

(** [setup_context], lines 114-124, with [self.profile] as [profile]. *)
Definition setup_context {P : Type} (profile : P) (req : request)
  (h : ctx_request P -> result response) : result response :=
  let admin_context := mk_admin_request_context profile in
  h (mk_ctx_request req admin_context).

(** The tail of the middleware list of [make_application]: [check_token]
    is appended before [setup_context], so it wraps it; [route] is the
    handler the router picked. *)
Definition check_token_then_context {P : Type} (profile : P) (req : request)
  (route : ctx_request P -> result response) : result response :=
  check_token req (fun r => setup_context profile r route).

(** The handlers registered by [app.add_routes], lines 137-144. *)
Inductive route_handler :=
| RedirectHandler
| StatusResetHandler
| LivelinessHandler
| ReadinessHandler.

Record route := mk_route {
  route_method : string;
  route_path : string;
  route_allow_head : bool;
  route_target : route_handler
}.

(** The route table; [web.post] takes no [allow_head]. *)
Definition routes : list route :=
  [ mk_route "GET" "/" true RedirectHandler;
    mk_route "POST" "/status/reset" false StatusResetHandler;
    mk_route "GET" "/status/live" false LivelinessHandler;
    mk_route "GET" "/status/ready" false ReadinessHandler ].

(** * Sequences of lifecycle operations *)

(** The server methods that change its state; a call that raises keeps
    the mutations it made before raising, which the monad returns. *)
Inductive op :=
| OpStart (o : bind_outcome)
| OpStop
| OpNotify
| OpReset.

Definition exec_op (o : op) (s : server) : server :=
  match o with
  | OpStart b => snd (start b s)
  | OpStop => snd (stop s)
  | OpNotify => snd (notify_fatal_error s)
  | OpReset => snd (status_reset_handler (mk_request "POST" "/status/reset" []) s)
  end.

Fixpoint run_ops (os : list op) (s : server) : server :=
  match os with
  | [] => s
  | o :: os' => run_ops os' (exec_op o s)
  end.

(** [ready] implies [alive] in the application state, when there is one. *)
Definition ready_implies_alive (s : server) : Prop :=
  forall a, app s = Some a -> ready a = true -> alive a = true.

(** * Properties *)

Open Scope Z_scope.

(** Concrete inputs: a server on 127.0.0.1:8020 and the two probes. *)
Definition ctx0 : injection_context := mk_context None.
Definition srv0 : server := init "127.0.0.1" 8020 ctx0.
Definition get_live : request := mk_request "GET" "/status/live" [].
Definition get_ready : request := mk_request "GET" "/status/ready" [].

Module Examples.

Example Z_str_8020 : Z_str 8020 = "8020".
Proof. reflexivity. Qed.

Example start_oserror_msg :
  fst (start BindOSError srv0)
  = Err (AdminSetupError ("Unable to start webserver with host '127.0.0.1' and port '8020'" ++ newline)).
Proof. reflexivity. Qed.

Example headers_get_ci :
  headers_get [("X-API-Key", "k")] "x-api-key" = Some "k".
Proof. reflexivity. Qed.

End Examples.

(** A request that [check_token] receives, whatever its method, path and
    headers, is never passed on: evaluating [admin_api_key.encode()] on
    the literal [None] raises first. *)
Lemma check_token_raises (req : request) (h : handler) :
  check_token req h = Err (AttributeError "'NoneType' object has no attribute 'encode'").
Proof. reflexivity. Qed.

(** Claim C1 (code_bug): [check_token] does not answer 401 exactly on a
    key mismatch.  For every request, with any [x-api-key] value or none,
    it raises an [AttributeError] (a 500 response): it never answers 401
    and never lets the request through to the handler. *)
Theorem check_token_never_401_nor_forwards :
  forall (req : request) (h : handler),
    check_token req h = Err (AttributeError "'NoneType' object has no attribute 'encode'")
    /\ http_status (check_token req h) = 500
    /\ http_status (check_token req h) <> 401.
Proof.
  intros req h. rewrite check_token_raises. repeat split; discriminate.
Qed.

(** Claim C2 (code_bug): an [OPTIONS] request is not let through by
    [check_token].  The key comparison that raises is evaluated before the
    method test, so a preflight request gets a 500 response and the next
    handler is never called, whatever its headers are. *)
Theorem check_token_options_not_forwarded :
  forall (path : string) (hs : list (string * string)) (h : handler),
    check_token (mk_request "OPTIONS" path hs) h
      = Err (AttributeError "'NoneType' object has no attribute 'encode'")
    /\ http_status (check_token (mk_request "OPTIONS" path hs) h) = 500.
Proof.
  intros path hs h. rewrite check_token_raises. split; reflexivity.
Qed.

(** [stop] on a server whose application exists: [ready] is cleared,
    [alive] is kept, the site is dropped. *)
Lemma stop_with_app (s : server) (a : app_state) :
  app s = Some a ->
  stop s = (Ok tt, set_site (set_app s (Some (mk_app_state false (alive a)))) None).
Proof.
  destruct s as [ap h p c st]; simpl. intros ->.
  destruct st; reflexivity.
Qed.

Lemma liveliness_with_app (r : request) (s : server) (a : app_state) :
  app s = Some a ->
  liveliness_handler r s
  = (if alive a
     then (Ok (json_response (JObj [("alive", JBool true)])), s)
     else (Err (HTTPServiceUnavailable "Service not available"), s)).
Proof.
  destruct s as [ap h p c st]; simpl. intros ->.
  destruct a as [[] []]; reflexivity.
Qed.

Lemma readiness_with_app (r : request) (s : server) (a : app_state) :
  app s = Some a ->
  readiness_handler r s
  = (if ready a && alive a
     then (Ok (json_response (JObj [("ready", JBool true)])), s)
     else (Err (HTTPServiceUnavailable "Service not ready"), s)).
Proof.
  destruct s as [ap h p c st]; simpl. intros ->.
  destruct a as [[] []]; reflexivity.
Qed.

(** A successful [start]: the new application has both flags set and
    the site is the one built from [host] and [port]. *)
Lemma start_ok_state (s : server) :
  start BindOk s
  = (Ok tt, mk_server (Some (mk_app_state true true)) (host s) (port s)
                      (context s) (Some (mk_site (host s) (port s)))).
Proof. destruct s; reflexivity. Qed.


(** Claim C3 (counterexample): after [start] succeeds and [stop]
    returns, [alive] is still true, and the liveliness handler answers
    200 [{"alive": true}], not 503. *)
Lemma stop_after_start_alive_cex :
  let s1 := snd (start BindOk (init "127.0.0.1" 8020 (mk_context None))) in
  let s2 := snd (stop s1) in
  app s2 = Some (mk_app_state false true)
  /\ http_status (fst (liveliness_handler get_live s2)) = 200.
Proof. split; reflexivity. Qed.

(** Claim C3 (amended): after [stop] on a server whose [start]
    succeeded, [ready] is false and the site is gone, but [alive] is
    left true: the readiness handler answers 503 "Service not ready"
    while the liveliness handler still answers 200 [{"alive": true}]. *)
Theorem stop_after_start_clears_ready_only :
  forall (s : server) (r : request),
    exists s1 s2,
      start BindOk s = (Ok tt, s1)
      /\ stop s1 = (Ok tt, s2)
      /\ app s2 = Some (mk_app_state false true)
      /\ site s2 = None
      /\ fst (readiness_handler r s2) = Err (HTTPServiceUnavailable "Service not ready")
      /\ fst (liveliness_handler r s2)
         = Ok (json_response (JObj [("alive", JBool true)])).
Proof.
  intros s r. rewrite start_ok_state.
  eexists _, _. split; [reflexivity|].
  rewrite (stop_with_app _ (mk_app_state true true)) by reflexivity.
  split; [reflexivity|]. simpl.
  repeat split; reflexivity.
Qed.

(** Claim C4: [start] either binds the socket, and then returns
    normally with [ready] and [alive] both true, or the bind raises an
    [OSError], and then [start] raises [AdminSetupError] naming the host
    and port while both flags of the new application stay false. *)
Theorem start_ok_or_setup_error :
  forall s : server,
    (exists s1, start BindOk s = (Ok tt, s1)
                /\ app s1 = Some (mk_app_state true true))
    /\ (exists s1, start BindOSError s
                   = (Err (AdminSetupError
                             ("Unable to start webserver with host "
                              ++ "'" ++ host s ++ "' and port '"
                              ++ Z_str (port s) ++ "'" ++ newline)), s1)
                   /\ app s1 = Some (mk_app_state false false)).
Proof.
  intros s. split.
  - rewrite start_ok_state. eexists. split; reflexivity.
  - destruct s. eexists. split; reflexivity.
Qed.

(** Claim C5: once the application exists, the readiness handler answers
    200 [{"ready": true}] exactly when both [ready] and [alive] are true,
    and otherwise raises 503 "Service not ready"; it changes no state. *)
Theorem readiness_iff_ready_and_alive :
  forall (r : request) (s : server) (a : app_state),
    app s = Some a ->
    readiness_handler r s
    = (if ready a && alive a
       then (Ok (json_response (JObj [("ready", JBool true)])), s)
       else (Err (HTTPServiceUnavailable "Service not ready"), s))
    /\ (http_status (fst (readiness_handler r s)) = 200
        <-> ready a = true /\ alive a = true)
    /\ (http_status (fst (readiness_handler r s)) <> 200 ->
        fst (readiness_handler r s) = Err (HTTPServiceUnavailable "Service not ready")).
Proof.
  intros r s a Ha. rewrite (readiness_with_app r s a Ha).
  destruct a as [[] []]; simpl; repeat split; try reflexivity;
    try discriminate; intros H; try (destruct H; discriminate);
    try (exfalso; apply H; reflexivity).
Qed.

Lemma readiness_iff_ready_and_alive_witness :
  app (set_app srv0 (Some (mk_app_state true false))) = Some (mk_app_state true false)
  /\ http_status (fst (readiness_handler get_ready
                         (set_app srv0 (Some (mk_app_state true false))))) = 503.
Proof.
  split; [reflexivity|].
  destruct (readiness_iff_ready_and_alive get_ready
              (set_app srv0 (Some (mk_app_state true false)))
              (mk_app_state true false) eq_refl) as [-> _].
  reflexivity.
Defined.

(** Claim C6: once the application exists, the liveliness handler
    answers 200 [{"alive": true}] exactly when [alive] is true, and
    otherwise raises 503 "Service not available"; changing [ready] does
    not change its answer. *)
Theorem liveliness_iff_alive :
  forall (r : request) (s : server) (a : app_state),
    app s = Some a ->
    liveliness_handler r s
    = (if alive a
       then (Ok (json_response (JObj [("alive", JBool true)])), s)
       else (Err (HTTPServiceUnavailable "Service not available"), s))
    /\ (http_status (fst (liveliness_handler r s)) = 200 <-> alive a = true)
    /\ (forall b : bool,
          fst (liveliness_handler r (set_app s (Some (mk_app_state b (alive a)))))
          = fst (liveliness_handler r s)).
Proof.
  intros r s a Ha. rewrite (liveliness_with_app r s a Ha).
  split; [reflexivity|]. split.
  - destruct a as [rd []]; simpl; split; intros H;
      try reflexivity; discriminate.
  - intros b.
    rewrite (liveliness_with_app r _ (mk_app_state b (alive a))) by reflexivity.
    simpl. destruct (alive a); reflexivity.
Qed.

Lemma liveliness_iff_alive_witness :
  app (set_app srv0 (Some (mk_app_state false true))) = Some (mk_app_state false true)
  /\ http_status (fst (liveliness_handler get_live
                         (set_app srv0 (Some (mk_app_state false true))))) = 200.
Proof.
  split; [reflexivity|].
  apply (proj1 (proj2 (liveliness_iff_alive get_live
              (set_app srv0 (Some (mk_app_state false true)))
              (mk_app_state false true) eq_refl))).
  reflexivity.
Defined.

(** Claim C7: on a server whose application exists,
    [notify_fatal_error] sets [ready] and [alive] to false and changes
    nothing else (the site is kept, so the socket stays open); both
    health handlers then raise 503. *)
Theorem notify_fatal_error_clears_flags_only :
  forall (s : server) (a : app_state) (r : request),
    app s = Some a ->
    notify_fatal_error s = (Ok tt, set_app s (Some (mk_app_state false false)))
    /\ site (snd (notify_fatal_error s)) = site s
    /\ host (snd (notify_fatal_error s)) = host s
    /\ port (snd (notify_fatal_error s)) = port s
    /\ context (snd (notify_fatal_error s)) = context s
    /\ http_status (fst (liveliness_handler r (snd (notify_fatal_error s)))) = 503
    /\ http_status (fst (readiness_handler r (snd (notify_fatal_error s)))) = 503.
Proof.
  intros s a r Ha.
  assert (E : notify_fatal_error s = (Ok tt, set_app s (Some (mk_app_state false false)))).
  { destruct s as [ap h p c st]; simpl in Ha; subst ap; reflexivity. }
  rewrite E. cbn [fst snd].
  rewrite (liveliness_with_app r _ (mk_app_state false false)) by reflexivity.
  rewrite (readiness_with_app r _ (mk_app_state false false)) by reflexivity.
  destruct s; repeat split; reflexivity.
Qed.

Lemma notify_fatal_error_clears_flags_only_witness :
  let s := snd (start BindOk srv0) in
  app s = Some (mk_app_state true true)
  /\ site (snd (notify_fatal_error s)) = Some (mk_site "127.0.0.1" 8020).
Proof.
  cbv zeta. split; [reflexivity|].
  destruct (notify_fatal_error_clears_flags_only
              (snd (start BindOk srv0)) (mk_app_state true true) get_live eq_refl)
    as [_ [-> _]].
  reflexivity.
Defined.

(** Claim C8: [stop] is idempotent: once a call to [stop] has returned,
    a second call returns without error and leaves the state (flags and
    site) as the first call left it. *)
Theorem stop_idempotent :
  forall s s1 : server,
    stop s = (Ok tt, s1) ->
    stop s1 = (Ok tt, s1).
Proof.
  intros [ap h p c st] s1 H.
  destruct ap as [a|]; [|discriminate].
  rewrite (stop_with_app (mk_server (Some a) h p c st) a eq_refl) in H.
  injection H as <-.
  rewrite (stop_with_app _ (mk_app_state false (alive a))) by reflexivity.
  reflexivity.
Qed.

Lemma stop_idempotent_witness :
  stop (snd (start BindOk srv0)) = (Ok tt, snd (stop (snd (start BindOk srv0))))
  /\ stop (snd (stop (snd (start BindOk srv0))))
     = (Ok tt, snd (stop (snd (start BindOk srv0)))).
Proof.
  split; [reflexivity|].
  apply (stop_idempotent (snd (start BindOk srv0))). reflexivity.
Defined.

(** Claim C9: the reset handler always returns 200 [{}]: with a
    [Collector] in the context it resets it, without one it returns the
    same response and changes nothing. *)
Theorem status_reset_always_ok :
  forall (r : request) (s : server),
    fst (status_reset_handler r s) = Ok (json_response (JObj []))
    /\ http_status (fst (status_reset_handler r s)) = 200
    /\ ctx_collector (context (snd (status_reset_handler r s)))
       = option_map collector_reset (ctx_collector (context s))
    /\ (ctx_collector (context s) = None -> snd (status_reset_handler r s) = s).
Proof.
  intros r [ap h p [[c|]] st]; repeat split; try reflexivity; discriminate.
Qed.

(** Claim C10: [stop] on a server that was constructed but never
    started raises an [AttributeError] (it writes to [self.app._state]
    with [self.app] still [None]) instead of returning. *)
Theorem stop_before_start_raises :
  forall (h : string) (p : Z) (ctx : injection_context),
    stop (init h p ctx)
    = (Err (AttributeError "'NoneType' object has no attribute '_state'"), init h p ctx).
Proof. reflexivity. Qed.

(** * Further properties of the module *)

Lemma stop_no_app (s : server) :
  app s = None -> stop s = (Err (none_attr "_state"), s).
Proof. destruct s as [ap h p c st]; simpl; intros ->; reflexivity. Qed.

Lemma notify_no_app (s : server) :
  app s = None -> notify_fatal_error s = (Err (none_attr "_state"), s).
Proof. destruct s as [ap h p c st]; simpl; intros ->; reflexivity. Qed.

Lemma notify_with_app (s : server) (a : app_state) :
  app s = Some a ->
  notify_fatal_error s = (Ok tt, set_app s (Some (mk_app_state false false))).
Proof. destruct s as [ap h p c st]; simpl; intros ->; reflexivity. Qed.

Lemma start_fail_state (s : server) :
  snd (start BindOSError s)
  = mk_server (Some (mk_app_state false false)) (host s) (port s)
              (context s) (Some (mk_site (host s) (port s))).
Proof. destruct s; reflexivity. Qed.

Lemma reset_state (r : request) (s : server) :
  status_reset_handler r s
  = (Ok (json_response (JObj [])),
     match ctx_collector (context s) with
     | Some c => set_context s (mk_context (Some (collector_reset c)))
     | None => s
     end).
Proof. destruct s as [ap h p [[c|]] st]; reflexivity. Qed.

(** The application state after one operation, from the one before. *)
Lemma exec_op_app (o : op) (s : server) :
  app (exec_op o s)
  = match o with
    | OpStart BindOk => Some (mk_app_state true true)
    | OpStart BindOSError => Some (mk_app_state false false)
    | OpStop => option_map (fun a => mk_app_state false (alive a)) (app s)
    | OpNotify => option_map (fun _ => mk_app_state false false) (app s)
    | OpReset => app s
    end.
Proof.
  destruct o as [[]| | |]; cbn [exec_op].
  - rewrite start_ok_state; reflexivity.
  - rewrite start_fail_state; reflexivity.
  - destruct (app s) as [a|] eqn:E.
    + rewrite (stop_with_app s a E); reflexivity.
    + rewrite (stop_no_app s E); simpl; exact E.
  - destruct (app s) as [a|] eqn:E.
    + rewrite (notify_with_app s a E); reflexivity.
    + rewrite (notify_no_app s E); simpl; exact E.
  - rewrite reset_state. destruct (ctx_collector (context s)); reflexivity.
Qed.

Lemma exec_op_ready_implies_alive (o : op) (s : server) :
  ready_implies_alive s -> ready_implies_alive (exec_op o s).
Proof.
  unfold ready_implies_alive. intros Hinv a.
  rewrite exec_op_app.
  destruct o as [[]| | |]; simpl.
  - intros H; injection H as <-; reflexivity.
  - intros H; injection H as <-; discriminate.
  - destruct (app s); simpl; intros H; [injection H as <-|]; discriminate.
  - destruct (app s); simpl; intros H; [injection H as <-|]; discriminate.
  - apply Hinv.
Qed.

Lemma run_ops_ready_implies_alive (os : list op) (s : server) :
  ready_implies_alive s -> ready_implies_alive (run_ops os s).
Proof.
  revert s; induction os as [|o os IH]; intros s H; simpl.
  - exact H.
  - apply IH, exec_op_ready_implies_alive, H.
Qed.

Lemma run_ops_keeps_app (os : list op) (s : server) :
  app s <> None -> app (run_ops os s) <> None.
Proof.
  revert s; induction os as [|o os IH]; intros s H; simpl; [exact H|].
  apply IH. rewrite exec_op_app.
  destruct o as [[]| | |]; try discriminate;
    destruct (app s); simpl; congruence.
Qed.

(** Extra: of the four registered routes, exactly the two health checks
    are on unprotected paths; [/] and [/status/reset] are protected,
    while every path under [/static/swagger/] is unprotected. *)
Theorem unprotected_routes_are_health_checks :
  (forall rt : route, In rt routes ->
     (is_unprotected_path (route_path rt) = true
      <-> route_target rt = LivelinessHandler \/ route_target rt = ReadinessHandler))
  /\ (forall x : string, is_unprotected_path ("/static/swagger/" ++ x) = true).
Proof.
  split.
  - intros rt Hin. simpl in Hin.
    repeat (destruct Hin as [<- | Hin]; [simpl; split;
      [ intros H; first [discriminate | tauto]
      | intros [H|H]; first [discriminate | reflexivity] ] |]).
    contradiction.
  - intros [|c x]; reflexivity.
Qed.

(** Extra: behind [check_token], [setup_context] and the route handler
    never run: every request answers 500, whatever route the router
    picked, so the unprotected-path list is never consulted. *)
Theorem check_token_chain_never_reaches_route :
  forall (P : Type) (profile : P) (req : request)
         (route route' : ctx_request P -> result response),
    check_token_then_context profile req route
      = Err (AttributeError "'NoneType' object has no attribute 'encode'")
    /\ check_token_then_context profile req route
       = check_token_then_context profile req route'
    /\ http_status (check_token_then_context profile req route) = 500.
Proof.
  intros P profile req route route'. unfold check_token_then_context.
  rewrite !check_token_raises. repeat split.
Qed.

(** Extra: starting from a freshly constructed server, after any
    sequence of [start] (successful or not), [stop],
    [notify_fatal_error] and reset calls, [ready] true implies [alive]
    true in the application state. *)
Theorem ready_implies_alive_reachable :
  forall (os : list op) (h : string) (p : Z) (ctx : injection_context),
    ready_implies_alive (run_ops os (init h p ctx)).
Proof.
  intros os h p ctx. apply run_ops_ready_implies_alive.
  intros a Ha; discriminate Ha.
Qed.

(** Extra: once [start] has been called (successfully or not), any
    further sequence of operations keeps the application, so a later
    [stop] or [notify_fatal_error] never raises. *)
Theorem after_start_stop_and_notify_never_raise :
  forall (b : bind_outcome) (os : list op) (s : server),
    fst (stop (run_ops os (exec_op (OpStart b) s))) = Ok tt
    /\ fst (notify_fatal_error (run_ops os (exec_op (OpStart b) s))) = Ok tt.
Proof.
  intros b os s.
  assert (H : app (run_ops os (exec_op (OpStart b) s)) <> None).
  { apply run_ops_keeps_app. rewrite exec_op_app. destruct b; discriminate. }
  destruct (app (run_ops os (exec_op (OpStart b) s))) as [a|] eqn:E;
    [|contradiction].
  rewrite (stop_with_app _ a E), (notify_with_app _ a E). split; reflexivity.
Qed.

(** Extra: whenever the readiness check answers 200, the liveliness
    check on the same state answers 200 too. *)
Theorem readiness_ok_implies_liveliness_ok :
  forall (r : request) (s : server),
    http_status (fst (readiness_handler r s)) = 200 ->
    http_status (fst (liveliness_handler r s)) = 200.
Proof.
  intros r [[[[] []]|] h p c st]; simpl; intros H; try discriminate H;
    reflexivity.
Qed.

Lemma readiness_ok_implies_liveliness_ok_witness :
  http_status (fst (readiness_handler get_ready (snd (start BindOk srv0)))) = 200
  /\ http_status (fst (liveliness_handler get_live (snd (start BindOk srv0)))) = 200.
Proof.
  split; [reflexivity|].
  apply (readiness_ok_implies_liveliness_ok get_live (snd (start BindOk srv0))).
  reflexivity.
Defined.

(** Extra: a successful [start] brings both health checks back to 200
    after any history, e.g. after [stop] or [notify_fatal_error]: it
    builds a new application. *)
Theorem start_after_any_history_healthy :
  forall (os : list op) (s : server) (r : request),
    fst (liveliness_handler r (exec_op (OpStart BindOk) (run_ops os s)))
      = Ok (json_response (JObj [("alive", JBool true)]))
    /\ fst (readiness_handler r (exec_op (OpStart BindOk) (run_ops os s)))
      = Ok (json_response (JObj [("ready", JBool true)])).
Proof.
  intros os s r. cbn [exec_op]. rewrite start_ok_state.
  split; reflexivity.
Qed.

(** Extra: a [start] whose bind fails still records the site (it is
    assigned before the [try]); a following [stop] returns normally,
    drops the site and leaves both flags false. *)
Theorem failed_start_then_stop :
  forall s : server,
    site (snd (start BindOSError s)) = Some (mk_site (host s) (port s))
    /\ stop (snd (start BindOSError s))
       = (Ok tt, mk_server (Some (mk_app_state false false)) (host s) (port s)
                           (context s) None).
Proof.
  intros s. rewrite start_fail_state. split; reflexivity.
Qed.

(** Extra: before [start], [notify_fatal_error] raises an
    [AttributeError] and changes nothing, and both health handlers raise
    an [AttributeError] (a 500), not a 503. *)
Theorem before_start_notify_and_checks_raise :
  forall (h : string) (p : Z) (ctx : injection_context) (r : request),
    notify_fatal_error (init h p ctx) = (Err (none_attr "_state"), init h p ctx)
    /\ liveliness_handler r (init h p ctx) = (Err (none_attr "_state"), init h p ctx)
    /\ readiness_handler r (init h p ctx) = (Err (none_attr "_state"), init h p ctx)
    /\ http_status (fst (liveliness_handler r (init h p ctx))) = 500.
Proof. repeat split. Qed.

(** Extra: the reset handler leaves the flags, the site, the host and
    the port alone, and resetting twice leaves the same state as
    resetting once. *)
Theorem status_reset_frame_and_idempotent :
  forall (r : request) (s : server),
    let s1 := snd (status_reset_handler r s) in
    app s1 = app s /\ site s1 = site s /\ host s1 = host s /\ port s1 = port s
    /\ status_reset_handler r s1 = (Ok (json_response (JObj [])), s1).
Proof.
  intros r [ap h p [[c|]] st]; repeat split.
Qed.

(** Extra: [stop], whether it returns or raises, never changes [alive],
    the host, the port or the context, and leaves [ready] false
    whenever there is an application. *)
Theorem stop_frame :
  forall s : server,
    option_map alive (app (snd (stop s))) = option_map alive (app s)
    /\ option_map ready (app (snd (stop s))) = option_map (fun _ => false) (app s)
    /\ host (snd (stop s)) = host s
    /\ port (snd (stop s)) = port s
    /\ context (snd (stop s)) = context s.
Proof.
  intros s. destruct (app s) as [a|] eqn:E.
  - rewrite (stop_with_app s a E). destruct s; repeat split.
  - rewrite (stop_no_app s E). cbn [snd]. rewrite E. repeat split.
Qed.
